(** * Auto Email Draft Assistant: prompt construction and response
      post-processing of [app.py]

    The script is a Streamlit page.  Each interaction re-runs it from the top
    in a fresh namespace: the widgets are read into script variables
    (lines 31-50), and the results column (lines 53-120) builds a prompt,
    calls the text-generation pipeline and displays the extracted draft.

    The embedding follows the script:
    - a Python [str] is a list of Unicode code points;
    - a script variable that is bound only on some paths ([sender_name],
      [sender_position]) is an [option]; reading it goes through [var],
      which raises [NameError] when it is unbound;
    - the text-generation pipeline is a parameter of the run;
    - what the page shows is a trace of display events. *)

From Stdlib Require Import List NArith String Ascii Bool Arith Lia.
Import ListNotations.

Set Implicit Arguments.

(** ** Python strings *)

Module Py.

(** A character is a Unicode code point; [len] counts code points. *)
Definition char := N.
Definition str := list char.

(** ASCII literals of the source. *)
Definition lit (s : string) : str :=
  List.map N_of_ascii (list_ascii_of_string s).

Definition nl : char := 10%N.
Definition space : char := 32%N.
Definition spaces (n : nat) : str := repeat space n.

Definition len (s : str) : nat := List.length s.

(** Truth value of a string in a condition: non-empty. *)
Definition truthy (s : str) : bool :=
  match s with
  | [] => false
  | _ :: _ => true
  end.

Fixpoint eqb (s t : str) : bool :=
  match s, t with
  | [], [] => true
  | c :: s', d :: t' => N.eqb c d && eqb s' t'
  | _, _ => false
  end.

(** [str.lower] on the ASCII letters, which is all the tone labels of the
    select box are made of. *)
Definition lower_char (c : char) : char :=
  if (65 <=? c)%N && (c <=? 90)%N then (c + 32)%N else c.
Definition lower (s : str) : str := List.map lower_char s.

(** The characters [str.strip()] removes: those for which [str.isspace]
    holds. *)
Definition isspace (c : char) : bool :=
  ((9 <=? c) && (c <=? 13) || (28 <=? c) && (c <=? 32)
   || (c =? 133) || (c =? 160) || (c =? 5760)
   || (8192 <=? c) && (c <=? 8202)
   || (c =? 8232) || (c =? 8233) || (c =? 8239) || (c =? 8287)
   || (c =? 12288))%N.

Fixpoint lstrip (s : str) : str :=
  match s with
  | [] => []
  | c :: s' => if isspace c then lstrip s' else s
  end.
Definition rstrip (s : str) : str := rev (lstrip (rev s)).
Definition strip (s : str) : str := rstrip (lstrip s).

Fixpoint starts_with (p s : str) : bool :=
  match p, s with
  | [], _ => true
  | _ :: _, [] => false
  | c :: p', d :: s' => N.eqb c d && starts_with p' s'
  end.

(** [s.replace(old, new)]: every occurrence of [old], found from the left
    and without overlap, becomes [new].  [skip] counts the characters of
    the occurrence just matched that are still to be passed over. *)
Fixpoint replace_from (old new : str) (skip : nat) (s : str) : str :=
  match s with
  | [] => []
  | c :: s' =>
      match skip with
      | S k => replace_from old new k s'
      | O =>
          if starts_with old s
          then new ++ replace_from old new (List.length old - 1) s'
          else c :: replace_from old new 0 s'
      end
  end.

(** With an empty [old], Python puts [new] before every character and at
    the end. *)
Definition replace (s old new : str) : str :=
  match old with
  | [] => new ++ flat_map (fun c => c :: new) s
  | _ :: _ => replace_from old new 0 s
  end.

(** Substring test, used to state what a text contains. *)
Fixpoint contains (p s : str) : bool :=
  starts_with p s ||
  match s with
  | [] => false
  | _ :: s' => contains p s'
  end.

End Py.

Import Py.

(** ** Exceptions *)

(** The exceptions of class [Exception], which are the ones line 116
    catches: the [NameError] of an unbound variable and whatever error the
    pipeline raises.  [KeyboardInterrupt], [SystemExit] and the like, which
    [except Exception] lets through, are outside the model. *)
Inductive exn : Type :=
| NameError (name : string)
| EngineError (msg : str).

(** [str(e)] as the error box prints it. *)
Definition exn_str (e : exn) : str :=
  match e with
  | NameError name => lit "name '" ++ lit name ++ lit "' is not defined"
  | EngineError msg => msg
  end.

Inductive result (A : Type) : Type :=
| Ok (a : A)
| Raise (e : exn).
Arguments Ok {A} a.
Arguments Raise {A} e.

Definition bind {A B : Type} (r : result A) (k : A -> result B) : result B :=
  match r with
  | Ok a => k a
  | Raise e => Raise e
  end.

Notation "x <- r ;; k" := (bind r (fun x => k))
  (at level 61, r at next level, right associativity).

(** Reading a script variable. *)
Definition var (name : string) (v : option str) : result str :=
  match v with
  | Some s => Ok s
  | None => Raise (NameError name)
  end.

(** ** The form (lines 31-50) *)

Inductive Tone : Type :=
| Formal | Friendly | Apologetic | Urgent | Professional | Casual.

Definition tone_str (t : Tone) : str :=
  match t with
  | Formal => lit "Formal"
  | Friendly => lit "Friendly"
  | Apologetic => lit "Apologetic"
  | Urgent => lit "Urgent"
  | Professional => lit "Professional"
  | Casual => lit "Casual"
  end.

(** What the user has entered in the widgets of the left column.  The two
    signature inputs exist on the page only while the signature box is
    ticked; [w_your_name] and [w_your_position] are what they hold then.
    [w_generate] and [w_copy] are what the two buttons return in this run.  A
    Streamlit button returns [True] only in the run that its own click
    starts, so no run has both of them [true]; the record does not build
    this in, and a statement that depends on it says so. *)
Record Widgets : Type := {
  w_recipient : str;
  w_subject : str;
  w_purpose : str;
  w_tone : Tone;
  w_include_greeting : bool;
  w_include_signature : bool;
  w_your_name : str;
  w_your_position : str;
  w_generate : bool;
  w_copy : bool
}.

(** The script variables after line 50. *)
Record Env : Type := {
  recipient : str;
  subject : str;
  purpose : str;
  tone : Tone;
  include_greeting : bool;
  include_signature : bool;
  sender_name : option str;
  sender_position : option str;
  generate_button : bool
}.

(** Lines 31-50: [sender_name] and [sender_position] are assigned under
    [if include_signature:] only. *)
Definition collect (w : Widgets) : Env :=
  {| recipient := w_recipient w;
     subject := w_subject w;
     purpose := w_purpose w;
     tone := w_tone w;
     include_greeting := w_include_greeting w;
     include_signature := w_include_signature w;
     sender_name :=
       if w_include_signature w then Some (w_your_name w) else None;
     sender_position :=
       if w_include_signature w then Some (w_your_position w) else None;
     generate_button := w_generate w |}.

(** ** Prompt construction (lines 59-77) *)

(** The texts of the f-strings. *)
Definition base_clause (t : Tone) : str :=
  nl :: spaces 12 ++ lit "Write a " ++ lower (tone_str t) ++ lit " email"
     ++ nl :: spaces 12.
Definition greeting_clause (recipient : str) : str :=
  lit " that starts with a greeting to " ++ recipient.
Definition purpose_clause (purpose : str) : str :=
  lit " about the following: " ++ purpose ++ lit ".".
Definition subject_clause (subject : str) : str :=
  lit " The email subject is: '" ++ subject ++ lit "'.".
Definition structure_clause : str :=
  lit " The email should be professional, well-structured with clear paragraphs.".
Definition signature_clause (signature : str) : str :=
  lit " End the email with a proper closing and signature: " ++ signature
    ++ lit ".".

Definition build_prompt (e : Env) : result str :=
  let prompt_template := base_clause (tone e) in
  let prompt_template :=
    if include_greeting e && truthy (recipient e)
    then prompt_template ++ greeting_clause (recipient e)
    else prompt_template in
  let prompt_template := prompt_template ++ purpose_clause (purpose e) in
  let prompt_template :=
    if truthy (subject e)
    then prompt_template ++ subject_clause (subject e)
    else prompt_template in
  let prompt_template := prompt_template ++ structure_clause in
  if include_signature e then
    name <- var "sender_name" (sender_name e) ;;
    if truthy name then
      let signature := name in
      position <- var "sender_position" (sender_position e) ;;
      let signature :=
        if truthy position then signature ++ lit ", " ++ position
        else signature in
      Ok (prompt_template ++ signature_clause signature)
    else Ok prompt_template
  else Ok prompt_template.

(** ** Extraction of the draft (lines 91-103) *)

Definition indent : str := spaces 20.

(** The fallback f-string of lines 95-103.  Its replacement fields are
    evaluated from left to right; the last two read [sender_name] and
    [sender_position]. *)
Definition fallback_draft (e : Env) : result str :=
  let greeting :=
    if truthy (recipient e) then lit "Dear " ++ recipient e ++ lit ","
    else lit "Hello," in
  let closing :=
    if eqb (tone_str (tone e)) (lit "Formal")
       || eqb (tone_str (tone e)) (lit "Professional")
    then lit "Best regards," else lit "Thanks," in
  name <- var "sender_name" (sender_name e) ;;
  let name := if truthy name then name else [] in
  position <- var "sender_position" (sender_position e) ;;
  let position := if truthy position then position else [] in
  Ok (nl :: indent ++ greeting ++
      nl :: indent ++
      nl :: indent ++ purpose e ++
      nl :: indent ++
      nl :: indent ++ closing ++
      nl :: indent ++ name ++
      nl :: indent ++ position ++
      nl :: indent).

(** Line 91. *)
Definition strip_prompt (prompt_template output : str) : str :=
  strip (replace output prompt_template []).

(** Lines 91-103: the value of [email_text] that reaches the display. *)
Definition email_text (e : Env) (prompt_template output : str) : result str :=
  let email_text := strip_prompt prompt_template output in
  if len email_text <? 50 then fallback_draft e else Ok email_text.

(** ** The results column (lines 53-120) *)

Inductive event : Type :=
| Subheader (s : str)
| Spinner (s : str)
| Generate (prompt : str)      (* the call [generator(prompt_template, ...)] *)
| Container
| Markdown (s : str)
| Button (label : str)
| Success (s : str)
| Error (s : str)
| Info (s : str).

(** What one run of the results column shows, and the exception that leaves
    it, if any. *)
Record outcome : Type := {
  shown : list event;
  uncaught : option exn
}.

Definition results_header : event :=
  Subheader (9993%N :: 65039%N :: lit " Generated Email Draft").
Definition generating : event := Spinner (lit "Generating your email...").
Definition fill_in_details : event :=
  Info (lit "Fill in the details on the left and click 'Generate Email' to create your draft.").
Definition copy_label : str := 128203%N :: lit " Copy to Clipboard".

(** Lines 105-114. *)
Definition display (e : Env) (copy : bool) (email_text : str) : list event :=
  Container ::
  (if truthy (subject e) then [Markdown (lit "**Subject:** " ++ subject e)]
   else []) ++
  Markdown email_text ::
  Button copy_label ::
  (if copy then [Success (lit "Email copied to clipboard!")] else []).

(** Lines 116-118. *)
Definition handler (x : exn) : list event :=
  [ Error (lit "Error generating email: " ++ exn_str x);
    Info (lit "Try with a simpler description or different tone.") ].

Section Page.

(** The pipeline of line 19 applied as in lines 82-88, followed by
    [[0]['generated_text']]: the raw text, or the exception raised. *)
Variable generator : str -> result str.

Definition results (w : Widgets) : outcome :=
  let e := collect w in
  if generate_button e && truthy (purpose e) then
    match build_prompt e with
    | Raise x =>                      (* lines 59-77 are outside the [try] *)
        {| shown := [results_header; generating]; uncaught := Some x |}
    | Ok prompt_template =>
        let body :=
          match
            output <- generator prompt_template ;;
            email_text e prompt_template output
          with
          | Ok email_text => display e (w_copy w) email_text
          | Raise x => handler x
          end in
        {| shown := results_header :: generating :: Generate prompt_template
                      :: body;
           uncaught := None |}
    end
  else {| shown := [results_header; fill_in_details]; uncaught := None |}.

End Page.

(** ** The specification's wording, for comparison *)

(** "Remove the first literal occurrence of the prompt string": one
    occurrence only, the leftmost. *)
Fixpoint remove_first_occurrence (p s : str) : str :=
  if starts_with p s then skipn (List.length p) s
  else match s with
       | [] => []
       | c :: s' => c :: remove_first_occurrence p s'
       end.

(** The layout of the fallback f-string: every line indented, a newline
    before the first and the indentation of the closing quotes after the
    last. *)
Definition layout (lines : list str) : str :=
  nl :: flat_map (fun l => indent ++ l ++ [nl]) lines ++ indent.

Definition greeting_line (recipient : str) : str :=
  if truthy recipient then lit "Dear " ++ recipient ++ lit "," else lit "Hello,".

Definition closing_line (t : Tone) : str :=
  match t with
  | Formal | Professional => lit "Best regards,"
  | _ => lit "Thanks,"
  end.

(** "Each on its own line, each omitted if empty". *)
Definition line_unless_empty (s : str) : list str :=
  if truthy s then [s] else [].

Definition fallback_lines_omitting_empty (w : Widgets) : list str :=
  [greeting_line (w_recipient w); []; w_purpose w; []; closing_line (w_tone w)]
    ++ line_unless_empty (w_your_name w)
    ++ line_unless_empty (w_your_position w).

(** A text made of whitespace only. *)
Definition blank (s : str) : Prop := Forall (fun c => isspace c = true) s.

(** ** Auxiliary definitions for the statements *)

(** A clause that is appended under a condition, and the signature text of
    lines 74-76, for stating what [build_prompt] returns. *)
Definition clause_if (b : bool) (clause : str) : str :=
  if b then clause else [].

Definition signature_of (name position : str) : str :=
  name ++ clause_if (truthy position) (lit ", " ++ position).

Definition with_recipient (w : Widgets) (recipient : str) : Widgets :=
  {| w_recipient := recipient;
     w_subject := w_subject w;
     w_purpose := w_purpose w;
     w_tone := w_tone w;
     w_include_greeting := w_include_greeting w;
     w_include_signature := w_include_signature w;
     w_your_name := w_your_name w;
     w_your_position := w_your_position w;
     w_generate := w_generate w;
     w_copy := w_copy w |}.

Definition with_purpose (w : Widgets) (purpose : str) : Widgets :=
  {| w_recipient := w_recipient w;
     w_subject := w_subject w;
     w_purpose := purpose;
     w_tone := w_tone w;
     w_include_greeting := w_include_greeting w;
     w_include_signature := w_include_signature w;
     w_your_name := w_your_name w;
     w_your_position := w_your_position w;
     w_generate := w_generate w;
     w_copy := w_copy w |}.

(** The script variables with the two signature variables set by hand. *)
Definition with_sender_vars (e : Env) (name position : option str) : Env :=
  {| recipient := recipient e;
     subject := subject e;
     purpose := purpose e;
     tone := tone e;
     include_greeting := include_greeting e;
     include_signature := include_signature e;
     sender_name := name;
     sender_position := position;
     generate_button := generate_button e |}.

(** ** Sample requests *)

Definition with_sender (w : Widgets) (name position : str) : Widgets :=
  {| w_recipient := w_recipient w;
     w_subject := w_subject w;
     w_purpose := w_purpose w;
     w_tone := w_tone w;
     w_include_greeting := w_include_greeting w;
     w_include_signature := w_include_signature w;
     w_your_name := name;
     w_your_position := position;
     w_generate := w_generate w;
     w_copy := w_copy w |}.

(** The scenario of the specification. *)
Definition scenario : Widgets :=
  {| w_recipient := lit "John Doe";
     w_subject := lit "Meeting Request";
     w_purpose := lit "Apologizing for missing the meeting";
     w_tone := Formal;
     w_include_greeting := true;
     w_include_signature := true;
     w_your_name := lit "Jane Smith";
     w_your_position := lit "Marketing Manager";
     w_generate := true;
     w_copy := false |}.

(** The same with the signature box unticked. *)
Definition unsigned : Widgets :=
  {| w_recipient := lit "John Doe";
     w_subject := lit "Meeting Request";
     w_purpose := lit "Apologizing for missing the meeting";
     w_tone := Formal;
     w_include_greeting := true;
     w_include_signature := false;
     w_your_name := [];
     w_your_position := [];
     w_generate := true;
     w_copy := false |}.

Definition no_sender : Widgets := with_sender scenario [] [].

(** Sender details held by the widgets while the signature box is unticked,
    and submissions with no purpose and with a purpose of three spaces. *)
Definition unsigned_with_sender : Widgets :=
  with_sender unsigned (lit "Jane Smith") (lit "Marketing Manager").
Definition no_purpose : Widgets := with_purpose scenario [].
Definition blank_purpose : Widgets := with_purpose scenario (spaces 3).

(** An engine that returns the prompt and nothing more. *)
Definition echo (prompt : str) : result str := Ok prompt.

(** ** Reading a trace *)

(** The calls of the engine among the events of a run. *)
Definition is_call (ev : event) : bool :=
  match ev with
  | Generate _ => true
  | _ => false
  end.

Definition calls (trace : list event) : nat :=
  List.length (filter is_call trace).

(** An engine that fails, and one that returns the prompt followed by a
    letter of its own. *)
Definition out_of_memory (prompt : str) : result str :=
  Raise (EngineError (lit "CUDA out of memory")).

Definition letter : str :=
  lit " Dear John Doe, I am sorry that I missed the meeting. Best regards, Jane Smith ".

Definition echo_then_letter (prompt : str) : result str :=
  Ok (prompt ++ letter).

(** The scenario with the greeting box unticked, and with a position but no
    name under the ticked signature box. *)
Definition ungreeted : Widgets :=
  {| w_recipient := lit "John Doe";
     w_subject := lit "Meeting Request";
     w_purpose := lit "Apologizing for missing the meeting";
     w_tone := Formal;
     w_include_greeting := false;
     w_include_signature := true;
     w_your_name := lit "Jane Smith";
     w_your_position := lit "Marketing Manager";
     w_generate := true;
     w_copy := false |}.

Definition position_only : Widgets :=
  with_sender scenario [] (lit "Marketing Manager").

(** The prompt of the scenario, and the run that a click on the copy button
    starts: the generate button is not pressed in it. *)
Definition scenario_prompt : str :=
  Eval vm_compute in
    match build_prompt (collect scenario) with
    | Ok p => p
    | Raise _ => []
    end.

Definition copy_clicked : Widgets :=
  {| w_recipient := lit "John Doe";
     w_subject := lit "Meeting Request";
     w_purpose := lit "Apologizing for missing the meeting";
     w_tone := Formal;
     w_include_greeting := true;
     w_include_signature := true;
     w_your_name := lit "Jane Smith";
     w_your_position := lit "Marketing Manager";
     w_generate := false;
     w_copy := true |}.

(** * Properties *)

(** ** Strings *)

Section StringFacts.

Implicit Types s t p old new : str.

Lemma starts_with_app p t : starts_with p (p ++ t) = true.
Proof.
  induction p as [|c p IH]; simpl.
  - reflexivity.
  - rewrite N.eqb_refl. exact IH.
Qed.

Lemma starts_with_inv p : forall s,
  starts_with p s = true -> exists t, s = p ++ t.
Proof.
  induction p as [|c p IH]; intros s H.
  - exists s. reflexivity.
  - destruct s as [|d s]; simpl in H; [discriminate|].
    apply andb_true_iff in H. destruct H as [Hc Hp].
    apply N.eqb_eq in Hc. subst d.
    destruct (IH _ Hp) as [t Ht]. subst s.
    exists t. reflexivity.
Qed.

Lemma eqb_eq s : forall t, eqb s t = true <-> s = t.
Proof.
  induction s as [|c s IH]; intros [|d t]; simpl; split; intro H;
    try reflexivity; try discriminate.
  - apply andb_true_iff in H. destruct H as [Hc Hs].
    apply N.eqb_eq in Hc. apply IH in Hs. congruence.
  - injection H as Hc Hs. subst. rewrite N.eqb_refl. simpl.
    apply IH. reflexivity.
Qed.

Lemma truthy_true s : truthy s = true <-> s <> [].
Proof.
  destruct s; simpl; split; intro H;
    solve [congruence | discriminate | reflexivity].
Qed.

Lemma truthy_false s : truthy s = false <-> s = [].
Proof.
  destruct s; simpl; split; intro H;
    solve [congruence | discriminate | reflexivity].
Qed.

Lemma starts_with_longer p s b :
  starts_with p s = true -> starts_with p (s ++ b) = true.
Proof.
  intro H. apply starts_with_inv in H. destruct H as [t Ht]. subst s.
  rewrite <- app_assoc. apply starts_with_app.
Qed.

Lemma contains_self p : contains p p = true.
Proof.
  assert (H : starts_with p p = true).
  { pose proof (starts_with_app p []) as H. rewrite app_nil_r in H.
    exact H. }
  destruct p; cbn [contains]; rewrite H; reflexivity.
Qed.

Lemma contains_app_r p a s :
  contains p s = true -> contains p (a ++ s) = true.
Proof.
  intro H. induction a as [|c a IH]; simpl.
  - exact H.
  - rewrite IH. apply orb_true_r.
Qed.

Lemma contains_app_l p b : forall s,
  contains p s = true -> contains p (s ++ b) = true.
Proof.
  induction s as [|c s IH]; intro H.
  - destruct p; [destruct b; reflexivity | discriminate].
  - cbn [contains] in H. apply orb_true_iff in H.
    change ((c :: s) ++ b) with (c :: (s ++ b)). cbn [contains].
    apply orb_true_iff. destruct H as [H|H].
    + left. change (c :: s ++ b) with ((c :: s) ++ b).
      apply starts_with_longer. exact H.
    + right. exact (IH H).
Qed.

(** *** [replace] *)

Lemma replace_from_nil old new k : replace_from old new k [] = [].
Proof. destruct k; reflexivity. Qed.

Lemma replace_from_skip old new k : forall s,
  replace_from old new k s = replace_from old new 0 (skipn k s).
Proof.
  induction k as [|k IH]; intros [|c s]; try reflexivity.
  simpl skipn. rewrite <- IH. reflexivity.
Qed.

Lemma replace_from_match old new t :
  old <> [] ->
  replace_from old new 0 (old ++ t) = new ++ replace_from old new 0 t.
Proof.
  destruct old as [|c old']; [congruence|]. intros _.
  change ((c :: old') ++ t) with (c :: (old' ++ t)).
  cbn [replace_from].
  change (c :: old' ++ t) with ((c :: old') ++ t).
  rewrite starts_with_app, replace_from_skip.
  cbn [List.length]. rewrite Nat.sub_1_r. cbn [Nat.pred].
  rewrite skipn_app, skipn_all, Nat.sub_diag. reflexivity.
Qed.

Lemma replace_from_miss old new c s :
  starts_with old (c :: s) = false ->
  replace_from old new 0 (c :: s) = c :: replace_from old new 0 s.
Proof. intro H. cbn [replace_from]. rewrite H. reflexivity. Qed.

Lemma replace_nonempty s old new :
  old <> [] -> replace s old new = replace_from old new 0 s.
Proof. destruct old; [congruence | reflexivity]. Qed.

(** Up to the leftmost occurrence the text is kept; the occurrence is
    replaced; the rest is treated in the same way. *)
Lemma replace_leftmost old new b : forall a,
  old <> [] ->
  (forall i, i < List.length a ->
             starts_with old (skipn i (a ++ old ++ b)) = false) ->
  replace (a ++ old ++ b) old new = a ++ new ++ replace b old new.
Proof.
  intros a Hold. rewrite !replace_nonempty by assumption.
  induction a as [|c a IH]; intro H.
  - simpl app. apply replace_from_match. assumption.
  - change ((c :: a) ++ old ++ b) with (c :: (a ++ old ++ b)).
    rewrite replace_from_miss.
    + rewrite IH; [reflexivity|].
      intros i Hi. apply (H (S i)). simpl. lia.
    + apply (H 0). simpl. lia.
Qed.

(** A text in which [old] does not occur is left as it is. *)
Lemma replace_absent old new : forall s,
  old <> [] ->
  (forall i, starts_with old (skipn i s) = false) ->
  replace s old new = s.
Proof.
  intros s Hold. rewrite replace_nonempty by assumption.
  induction s as [|c s IH]; intro H.
  - reflexivity.
  - rewrite replace_from_miss by exact (H 0).
    rewrite IH; [reflexivity|].
    intro i. exact (H (S i)).
Qed.

(** *** [strip] *)

Lemma lstrip_split s :
  exists l, s = l ++ lstrip s /\ blank l.
Proof.
  induction s as [|c s [l [E B]]]; simpl.
  - exists []. split; [reflexivity | constructor].
  - destruct (isspace c) eqn:Hc.
    + exists (c :: l). split.
      * simpl. congruence.
      * constructor; assumption.
    + exists []. split; [reflexivity | constructor].
Qed.

Lemma lstrip_head s c r : lstrip s = c :: r -> isspace c = false.
Proof.
  induction s as [|d s IH]; simpl; [discriminate|].
  destruct (isspace d) eqn:Hd; [exact IH|].
  intro E. injection E as -> _. exact Hd.
Qed.

Lemma lstrip_app_solid d : forall x y,
  isspace d = false -> lstrip (x ++ d :: y) = lstrip x ++ d :: y.
Proof.
  intros x y Hd. induction x as [|a x IH]; simpl.
  - rewrite Hd. reflexivity.
  - destruct (isspace a); [exact IH | reflexivity].
Qed.

Lemma strip_split s :
  exists l t, s = l ++ strip s ++ t /\ blank l /\ blank t.
Proof.
  destruct (lstrip_split s) as [l [El Bl]].
  destruct (lstrip_split (rev (lstrip s))) as [t [Et Bt]].
  exists l, (rev t). split; [|split].
  - unfold strip, rstrip. rewrite <- rev_app_distr, <- Et, rev_involutive.
    exact El.
  - exact Bl.
  - apply Forall_rev. exact Bt.
Qed.

Lemma strip_last s r c : strip s = r ++ [c] -> isspace c = false.
Proof.
  unfold strip, rstrip. intro E.
  apply (f_equal (@rev char)) in E.
  rewrite rev_involutive, rev_unit in E.
  exact (lstrip_head _ E).
Qed.

Lemma strip_head s c r : strip s = c :: r -> isspace c = false.
Proof.
  unfold strip, rstrip.
  destruct (lstrip s) as [|d m] eqn:E; [discriminate|].
  pose proof (lstrip_head _ E) as Hd.
  simpl rev. rewrite (@lstrip_app_solid d (rev m) [] Hd), rev_unit.
  intro E'. injection E' as -> _. exact Hd.
Qed.

End StringFacts.

(** ** The prompt *)

Section PromptFacts.

Variable w : Widgets.

(** On the variables the form binds, [build_prompt] raises nothing and
    returns the clauses in this order. *)
Lemma build_prompt_collect :
  build_prompt (collect w) =
  Ok (base_clause (w_tone w)
      ++ clause_if (w_include_greeting w && truthy (w_recipient w))
                   (greeting_clause (w_recipient w))
      ++ purpose_clause (w_purpose w)
      ++ clause_if (truthy (w_subject w)) (subject_clause (w_subject w))
      ++ structure_clause
      ++ clause_if (w_include_signature w && truthy (w_your_name w))
                   (signature_clause
                      (signature_of (w_your_name w) (w_your_position w)))).
Proof.
  unfold build_prompt, collect, signature_of, clause_if.
  cbn [recipient subject purpose tone include_greeting include_signature
       sender_name sender_position].
  destruct (w_include_greeting w), (truthy (w_recipient w)),
    (truthy (w_subject w)), (w_include_signature w);
    cbn [andb var bind];
    try destruct (truthy (w_your_name w));
    try destruct (truthy (w_your_position w));
    rewrite <- ?app_assoc, ?app_nil_r; reflexivity.
Qed.

End PromptFacts.

Lemma Ok_inj (A : Type) (a b : A) : Ok a = Ok b -> a = b.
Proof. intro H. injection H as H. exact H. Qed.

(** The purpose, as typed, is part of every prompt. *)
Lemma build_prompt_has_purpose (w : Widgets) :
  exists p,
    build_prompt (collect w) = Ok p /\ contains (w_purpose w) p = true.
Proof.
  eexists. split; [apply build_prompt_collect|].
  unfold purpose_clause.
  do 2 apply contains_app_r. apply contains_app_l, contains_app_r.
  apply contains_app_l, contains_self.
Qed.

Lemma greeting_clause_nonempty r : greeting_clause r <> [].
Proof. discriminate. Qed.

Lemma signature_clause_nonempty s : signature_clause s <> [].
Proof. discriminate. Qed.

Lemma skipn_own_length (a b : str) : skipn (len a) (a ++ b) = b.
Proof.
  unfold len. rewrite skipn_app, skipn_all, Nat.sub_diag. reflexivity.
Qed.

(** C5.  The prompt carries a greeting clause exactly when the greeting box
    is ticked and the recipient is non-empty, and a signature clause exactly
    when the signature box is ticked and the sender's name is non-empty.
    The clause in the greeting place is empty or the greeting clause, the one
    in the signature place is empty or the signature clause; and in the
    prompt itself the text after the base clause begins with the greeting
    words under that same condition only. *)
Theorem optional_clauses_iff (w : Widgets) :
  exists greeting signature,
    build_prompt (collect w) =
      Ok (base_clause (w_tone w) ++ greeting ++ purpose_clause (w_purpose w)
          ++ clause_if (truthy (w_subject w)) (subject_clause (w_subject w))
          ++ structure_clause ++ signature)
    /\ (greeting = [] \/ greeting = greeting_clause (w_recipient w))
    /\ (greeting <> [] <->
        w_include_greeting w = true /\ w_recipient w <> [])
    /\ (signature = [] \/
        signature = signature_clause
                      (signature_of (w_your_name w) (w_your_position w)))
    /\ (signature <> [] <->
        w_include_signature w = true /\ w_your_name w <> [])
    /\ (forall p, build_prompt (collect w) = Ok p ->
          starts_with (lit " that starts with a greeting to ")
                      (skipn (len (base_clause (w_tone w))) p)
          = w_include_greeting w && truthy (w_recipient w)).
Proof.
  exists (clause_if (w_include_greeting w && truthy (w_recipient w))
                    (greeting_clause (w_recipient w))),
         (clause_if (w_include_signature w && truthy (w_your_name w))
                    (signature_clause
                       (signature_of (w_your_name w) (w_your_position w)))).
  split; [apply build_prompt_collect|].
  split; [destruct (w_include_greeting w && truthy (w_recipient w));
          simpl; auto|].
  split.
  { rewrite <- truthy_true.
    destruct (w_include_greeting w), (truthy (w_recipient w)); simpl;
      split; intro H;
      solve [ split; reflexivity | apply greeting_clause_nonempty
            | contradiction | destruct H; discriminate ]. }
  split; [destruct (w_include_signature w && truthy (w_your_name w));
          simpl; auto|].
  split.
  { rewrite <- truthy_true.
    destruct (w_include_signature w), (truthy (w_your_name w)); simpl;
      split; intro H;
      solve [ split; reflexivity | apply signature_clause_nonempty
            | contradiction | destruct H; discriminate ]. }
  intros p Hp. rewrite build_prompt_collect in Hp. apply Ok_inj in Hp.
  subst p. rewrite skipn_own_length.
  destruct (w_include_greeting w && truthy (w_recipient w)); simpl clause_if.
  - unfold greeting_clause. rewrite <- app_assoc. apply starts_with_app.
  - reflexivity.
Qed.

(** C6, as the script has it.  The prompt begins with the base clause, which
    is a newline, twelve spaces, "Write a <tone in lower case> email", a
    newline and twelve spaces, with no full stop; then come, in this order,
    the greeting clause if any, the purpose clause with the purpose in it as
    typed, the subject clause if any, the fixed structure clause, and the
    signature clause if any. *)
Theorem prompt_clause_order (w : Widgets) :
  exists p greeting subject signature,
    build_prompt (collect w) = Ok p
    /\ p = (nl :: spaces 12 ++ lit "Write a " ++ lower (tone_str (w_tone w))
               ++ lit " email" ++ nl :: spaces 12)
           ++ greeting
           ++ (lit " about the following: " ++ w_purpose w ++ lit ".")
           ++ subject
           ++ structure_clause
           ++ signature
    /\ (greeting = [] \/ greeting = greeting_clause (w_recipient w))
    /\ (subject = [] \/ subject = subject_clause (w_subject w))
    /\ (signature = [] \/
        signature = signature_clause
                      (signature_of (w_your_name w) (w_your_position w)))
    /\ starts_with (base_clause (w_tone w)) p = true
    /\ contains (w_purpose w) p = true
    /\ contains structure_clause p = true.
Proof.
  eexists.
  exists (clause_if (w_include_greeting w && truthy (w_recipient w))
                    (greeting_clause (w_recipient w))),
         (clause_if (truthy (w_subject w)) (subject_clause (w_subject w))),
         (clause_if (w_include_signature w && truthy (w_your_name w))
                    (signature_clause
                       (signature_of (w_your_name w) (w_your_position w)))).
  split; [apply build_prompt_collect|].
  split; [reflexivity|].
  split; [destruct (w_include_greeting w && truthy (w_recipient w));
          simpl; auto|].
  split; [destruct (truthy (w_subject w)); simpl; auto|].
  split; [destruct (w_include_signature w && truthy (w_your_name w));
          simpl; auto|].
  split; [apply starts_with_app|].
  split.
  - unfold purpose_clause.
    do 2 apply contains_app_r. apply contains_app_l, contains_app_r.
    apply contains_app_l, contains_self.
  - do 4 apply contains_app_r. apply contains_app_l, contains_self.
Qed.

(** C6, as stated, fails on the scenario of the specification: the prompt
    does not begin with "Write a formal email." and that text, with its full
    stop, occurs nowhere in it. *)
Lemma base_clause_not_as_quoted :
  exists p,
    build_prompt (collect scenario) = Ok p
    /\ starts_with (lit "Write a formal email.") p = false
    /\ contains (lit "Write a formal email.") p = false.
Proof.
  eexists. split; [reflexivity|].
  split; vm_compute; reflexivity.
Qed.



(** ** The fallback draft *)

(** With the signature box unticked the two signature variables are unbound,
    and the f-string stops at the first of them. *)
Lemma fallback_draft_unsigned (w : Widgets) :
  w_include_signature w = false ->
  fallback_draft (collect w) = Raise (NameError "sender_name").
Proof.
  intro H. unfold fallback_draft, collect. cbn [sender_name]. rewrite H.
  reflexivity.
Qed.

Lemma fallback_draft_signed (w : Widgets) :
  w_include_signature w = true ->
  fallback_draft (collect w) =
  Ok (layout [greeting_line (w_recipient w); []; w_purpose w; [];
              closing_line (w_tone w); w_your_name w; w_your_position w]).
Proof.
  intro H. unfold fallback_draft, collect, layout, greeting_line.
  cbn [sender_name sender_position recipient purpose tone flat_map].
  rewrite H. cbn [var bind].
  replace (if truthy (w_your_name w) then w_your_name w else [])
    with (w_your_name w) by (destruct (w_your_name w); reflexivity).
  replace (if truthy (w_your_position w) then w_your_position w else [])
    with (w_your_position w) by (destruct (w_your_position w); reflexivity).
  replace (if eqb (tone_str (w_tone w)) (lit "Formal")
              || eqb (tone_str (w_tone w)) (lit "Professional")
           then lit "Best regards," else lit "Thanks,")
    with (closing_line (w_tone w)) by (destruct (w_tone w); reflexivity).
  f_equal. f_equal.
  rewrite <- ?app_assoc. cbn [app]. rewrite <- ?app_assoc. reflexivity.
Qed.

(** C8, as the script has it.  When the signature box is ticked, the
    fallback draft is the template of seven indented lines: the greeting line
    ("Dear <recipient>," for a non-empty recipient, "Hello," otherwise), an
    empty line, the purpose as typed, an empty line, the closing line ("Best
    regards," for the tones Formal and Professional, "Thanks," for the
    others), the sender's name and the sender's position.  The last two lines
    are always there; an empty field leaves its line empty. *)
Theorem fallback_template (w : Widgets) :
  w_include_signature w = true ->
  exists greeting closing,
    fallback_draft (collect w) =
      Ok (layout [greeting; []; w_purpose w; []; closing;
                  w_your_name w; w_your_position w])
    /\ (w_recipient w <> [] ->
        greeting = lit "Dear " ++ w_recipient w ++ lit ",")
    /\ (w_recipient w = [] -> greeting = lit "Hello,")
    /\ (w_tone w = Formal \/ w_tone w = Professional ->
        closing = lit "Best regards,")
    /\ (w_tone w <> Formal -> w_tone w <> Professional ->
        closing = lit "Thanks,").
Proof.
  intro H.
  exists (greeting_line (w_recipient w)), (closing_line (w_tone w)).
  split; [exact (fallback_draft_signed w H)|].
  repeat split.
  - intro Hr. apply truthy_true in Hr. unfold greeting_line.
    rewrite Hr. reflexivity.
  - intros ->. reflexivity.
  - intros [-> | ->]; reflexivity.
  - intros Hf Hp. destruct (w_tone w); congruence || reflexivity.
Qed.

Lemma fallback_template_witness :
  w_include_signature scenario = true
  /\ exists greeting closing,
       fallback_draft (collect scenario) =
         Ok (layout [greeting; []; w_purpose scenario; []; closing;
                     w_your_name scenario; w_your_position scenario])
       /\ (w_recipient scenario <> [] ->
           greeting = lit "Dear " ++ w_recipient scenario ++ lit ",")
       /\ (w_recipient scenario = [] -> greeting = lit "Hello,")
       /\ (w_tone scenario = Formal \/ w_tone scenario = Professional ->
           closing = lit "Best regards,")
       /\ (w_tone scenario <> Formal -> w_tone scenario <> Professional ->
           closing = lit "Thanks,").
Proof.
  split; [reflexivity|].
  apply (fallback_template scenario). reflexivity.
Defined.

(** C8, as stated, fails when the signature box is ticked and the sender
    fields are left empty: their two lines are not omitted.  The draft is the
    one with the lines omitted followed by two more, empty, lines. *)
Lemma empty_sender_lines_are_kept :
  fallback_draft (collect no_sender)
    = Ok (layout (fallback_lines_omitting_empty no_sender ++ [[]; []]))
  /\ fallback_draft (collect no_sender)
    <> Ok (layout (fallback_lines_omitting_empty no_sender)).
Proof.
  split.
  - reflexivity.
  - vm_compute. discriminate.
Qed.

(** ** Extraction of the draft from the raw text *)

(** C2, as the script has it.  Line 91 removes every occurrence of the
    prompt from the raw text, found from the left and without overlap, and
    then trims whitespace at both ends: a raw text without the prompt is only
    trimmed; in a raw text whose leftmost occurrence of the prompt follows
    [a], that occurrence goes and what follows it is treated in the same way;
    the outcome is what [replace] returns less a whitespace-only prefix and
    suffix, and neither begins nor ends with whitespace. *)
Theorem strip_prompt_every_occurrence (p : str) :
  (forall r, (forall i, starts_with p (skipn i r) = false) ->
             strip_prompt p r = strip r)
  /\ (forall a b,
        (forall i, i < len a ->
                   starts_with p (skipn i (a ++ p ++ b)) = false) ->
        strip_prompt p (a ++ p ++ b) = strip (a ++ replace b p []))
  /\ (forall r, exists l t,
        replace r p [] = l ++ strip_prompt p r ++ t /\ blank l /\ blank t)
  /\ (forall r c s, strip_prompt p r = c :: s -> isspace c = false)
  /\ (forall r s c, strip_prompt p r = s ++ [c] -> isspace c = false).
Proof.
  unfold strip_prompt. repeat split.
  - intros r H. destruct p as [|c p'].
    + discriminate (H 0).
    + rewrite replace_absent by (assumption || discriminate). reflexivity.
  - intros a b H. destruct p as [|c p'].
    + destruct a as [|d a]; [reflexivity|].
      discriminate (H 0 (Nat.lt_0_succ _)).
    + rewrite replace_leftmost by (assumption || discriminate). reflexivity.
  - intro r. apply strip_split.
  - intros r c s. apply strip_head.
  - intros r s c. apply strip_last.
Qed.

(** On "xabyabz" with the prompt "ab" both occurrences go. *)
Example strip_prompt_twice :
  strip_prompt (lit "ab") (lit " xabyabz ") = lit "xyz".
Proof. reflexivity. Qed.

(** C2, as stated, fails when the engine's text holds the prompt twice: the
    second occurrence is removed as well, where removing the first one only
    would leave it in place. *)
Lemma later_occurrences_are_removed :
  exists p,
    build_prompt (collect scenario) = Ok p
    /\ let r := p ++ lit "Dear John Doe," ++ p ++ lit "Best regards, Jane"
       in strip_prompt p r = lit "Dear John Doe,Best regards, Jane"
          /\ strip (remove_first_occurrence p r)
             = lit "Dear John Doe," ++ p ++ lit "Best regards, Jane"
          /\ strip_prompt p r <> strip (remove_first_occurrence p r).
Proof.
  eexists. split; [reflexivity|].
  cbv zeta. split; [vm_compute; reflexivity|].
  split; [vm_compute; reflexivity|].
  vm_compute. discriminate.
Qed.

(** With an empty [old] and an empty [new] nothing changes. *)
Lemma replace_empty_by_empty (s : str) : replace s [] [] = s.
Proof.
  unfold replace. simpl. induction s as [|c s IH]; simpl; congruence.
Qed.

(** A text of fifty characters or more after stripping is the draft, as it
    is. *)
Lemma email_text_long (e : Env) (prompt_template output : str) :
  50 <= len (strip_prompt prompt_template output) ->
  email_text e prompt_template output
  = Ok (strip_prompt prompt_template output).
Proof.
  intro H. unfold email_text.
  destruct (Nat.ltb_spec (len (strip_prompt prompt_template output)) 50);
    [lia | reflexivity].
Qed.

(** A shorter one gives way to the fallback draft. *)
Lemma email_text_short (e : Env) (prompt_template output : str) :
  len (strip_prompt prompt_template output) < 50 ->
  email_text e prompt_template output = fallback_draft e.
Proof.
  intro H. unfold email_text.
  destruct (Nat.ltb_spec (len (strip_prompt prompt_template output)) 50);
    [reflexivity | lia].
Qed.

(** With the signature box ticked the draft exists and is not empty. *)
Lemma email_text_signed_nonempty (w : Widgets) (prompt_template output : str) :
  w_include_signature w = true ->
  exists d, email_text (collect w) prompt_template output = Ok d /\ d <> [].
Proof.
  intro H.
  destruct (Nat.lt_ge_cases (len (strip_prompt prompt_template output)) 50)
    as [Hlt | Hge].
  - rewrite (email_text_short _ _ _ Hlt), (fallback_draft_signed w H).
    eexists. split; [reflexivity | discriminate].
  - rewrite (email_text_long _ _ _ Hge).
    eexists. split; [reflexivity|].
    intro E. rewrite E in Hge. simpl in Hge. lia.
Qed.

(** With the signature box unticked, every raw text that is too short ends
    in the [NameError]. *)
Lemma email_text_short_unsigned (w : Widgets) (prompt_template output : str) :
  w_include_signature w = false ->
  len (strip_prompt prompt_template output) < 50 ->
  email_text (collect w) prompt_template output
  = Raise (NameError "sender_name").
Proof.
  intros H Hlt.
  rewrite (email_text_short _ _ _ Hlt). exact (fallback_draft_unsigned w H).
Qed.

(** A long enough text reaches the page unchanged. *)
Lemma results_shows_long_text (generator : str -> result str) (w : Widgets)
      (p output : str) :
  w_generate w = true ->
  w_purpose w <> [] ->
  build_prompt (collect w) = Ok p ->
  generator p = Ok output ->
  50 <= len (strip_prompt p output) ->
  In (Markdown (strip_prompt p output)) (shown (results generator w)).
Proof.
  intros Hg Hne Hb Ho Hlen. apply truthy_true in Hne.
  unfold results. rewrite Hb.
  cbn [collect generate_button purpose]. rewrite Hg, Hne.
  cbn [andb shown]. rewrite Ho. cbn [bind].
  change (email_text _ p output)
    with (email_text (collect w) p output).
  rewrite (email_text_long _ _ _ Hlen).
  do 3 right. unfold display. right.
  apply in_or_app. right. left. reflexivity.
Qed.

(** C1 at the failing input: the signature box is unticked and the engine
    returns the prompt and nothing more.  The stripped text is empty, hence
    shorter than fifty characters, and in place of the fallback draft the
    extraction raises [NameError] for [sender_name]. *)
Theorem short_output_unsigned_raises :
  exists p,
    build_prompt (collect unsigned) = Ok p
    /\ len (strip_prompt p p) = 0
    /\ email_text (collect unsigned) p p = Raise (NameError "sender_name").
Proof.
  eexists. split; [reflexivity|].
  split; vm_compute; reflexivity.
Qed.

(** C3 at the same input: the page shows the error box with the message of
    the [NameError] and the hint, and no draft. *)
Theorem unsigned_fallback_shows_error :
  exists p,
    results echo unsigned =
    {| shown :=
         [ results_header; generating; Generate p;
           Error (lit "Error generating email: name 'sender_name' is not defined");
           Info (lit "Try with a simpler description or different tone.") ];
       uncaught := None |}.
Proof.
  eexists. vm_compute. reflexivity.
Qed.

(** ** The signature fields under an unticked box *)

Lemma collect_unsigned (w : Widgets) (name position : str) :
  w_include_signature w = false ->
  collect (with_sender w name position) = collect w.
Proof.
  intro H. unfold collect, with_sender.
  cbn [w_recipient w_subject w_purpose w_tone w_include_greeting
       w_include_signature w_your_name w_your_position w_generate].
  rewrite H. reflexivity.
Qed.

(** With the box unticked the prompt does not depend on the two signature
    variables, not even when they are set by hand: line 73 tests the box
    before it reads them. *)
Lemma build_prompt_unsigned (e : Env) (name position : option str) :
  include_signature e = false ->
  build_prompt (with_sender_vars e name position) = build_prompt e.
Proof.
  intro H. unfold build_prompt, with_sender_vars.
  cbn [recipient subject purpose tone include_greeting include_signature].
  rewrite H. reflexivity.
Qed.

(** C4 at the failing input: the signature box is unticked while the name
    and position widgets hold "Jane Smith" and "Marketing Manager".  The
    prompt is the one of the request with both fields empty, as the claim
    says.  The fallback draft is not: the draft for empty fields is the
    template with two empty last lines, but the f-string reads the unbound
    [sender_name] and raises.  Lines 101-102 do not test the box, so with the
    two variables set by hand the very same request prints the name and the
    position. *)
Theorem unsigned_fallback_is_unguarded :
  w_include_signature unsigned_with_sender = false
  /\ build_prompt (collect unsigned_with_sender)
     = build_prompt (collect (with_sender unsigned_with_sender [] []))
  /\ fallback_draft
       (with_sender_vars (collect unsigned_with_sender) (Some []) (Some []))
     = Ok (layout [lit "Dear John Doe,"; [];
                   lit "Apologizing for missing the meeting"; [];
                   lit "Best regards,"; []; []])
  /\ fallback_draft (collect unsigned_with_sender)
     = Raise (NameError "sender_name")
  /\ fallback_draft
       (with_sender_vars (collect unsigned_with_sender)
          (Some (lit "Jane Smith")) (Some (lit "Marketing Manager")))
     = Ok (layout [lit "Dear John Doe,"; [];
                   lit "Apologizing for missing the meeting"; [];
                   lit "Best regards,";
                   lit "Jane Smith"; lit "Marketing Manager"]).
Proof.
  split; [reflexivity|].
  split; [rewrite collect_unsigned; reflexivity|].
  split; [vm_compute; reflexivity|].
  split; [apply fallback_draft_unsigned; reflexivity|].
  vm_compute. reflexivity.
Qed.

(** ** The condition of line 56 *)

Section Submission.

Variable generator : str -> result str.

(** C9.  A submission with an empty purpose does nothing but show the
    header of the column and the note that asks for the details: no spinner,
    no call of the engine, no error box, and no exception. *)
Theorem no_purpose_no_generation (w : Widgets) :
  w_purpose w = [] ->
  results generator w
  = {| shown := [results_header; fill_in_details]; uncaught := None |}.
Proof.
  intro H. unfold results, collect. cbn [generate_button purpose].
  rewrite H, andb_false_r. reflexivity.
Qed.

(** C10.  Once the button is pressed, a purpose of whitespace only passes
    the test of line 56 like any other non-empty purpose: the prompt is
    built and handed to the engine.  The engine is called if and only if the
    purpose is not the empty string. *)
Theorem blank_purpose_is_submitted (w : Widgets) :
  w_generate w = true ->
  (w_purpose w <> [] -> blank (w_purpose w) ->
   exists p body,
     build_prompt (collect w) = Ok p
     /\ contains (w_purpose w) p = true
     /\ shown (results generator w)
        = results_header :: generating :: Generate p :: body)
  /\ ((exists p, In (Generate p) (shown (results generator w)))
      <-> w_purpose w <> []).
Proof.
  intro Hg.
  assert (Hcall : w_purpose w <> [] ->
            exists p body,
              build_prompt (collect w) = Ok p
              /\ contains (w_purpose w) p = true
              /\ shown (results generator w)
                 = results_header :: generating :: Generate p :: body).
  { intro Hne. apply truthy_true in Hne.
    destruct (build_prompt_has_purpose w) as [p [Hb Hc]].
    exists p. unfold results. rewrite Hb.
    cbn [collect generate_button purpose]. rewrite Hg, Hne.
    eexists. split; [reflexivity|]. split; [exact Hc | reflexivity]. }
  split.
  - intros Hne _. exact (Hcall Hne).
  - split.
    + intros [p Hin] E. unfold results in Hin.
      cbn [collect generate_button purpose] in Hin.
      rewrite E, andb_false_r in Hin.
      destruct Hin as [Hin | [Hin | []]]; discriminate Hin.
    + intro Hne. destruct (Hcall Hne) as [p [body [_ [_ Hs]]]].
      exists p. rewrite Hs. right. right. left. reflexivity.
Qed.

End Submission.

Lemma no_purpose_no_generation_witness :
  w_purpose no_purpose = []
  /\ results echo no_purpose
     = {| shown := [results_header; fill_in_details]; uncaught := None |}.
Proof.
  split; [reflexivity|].
  apply (no_purpose_no_generation echo no_purpose). reflexivity.
Defined.

Lemma blank_purpose_is_submitted_witness :
  w_generate blank_purpose = true
  /\ w_purpose blank_purpose = spaces 3
  /\ exists p body,
       build_prompt (collect blank_purpose) = Ok p
       /\ contains (w_purpose blank_purpose) p = true
       /\ shown (results echo blank_purpose)
          = results_header :: generating :: Generate p :: body.
Proof.
  split; [reflexivity|]. split; [reflexivity|].
  destruct (blank_purpose_is_submitted echo blank_purpose eq_refl)
    as [H _].
  apply H.
  - discriminate.
  - repeat constructor.
Defined.

(** * Further properties of the script *)

(** ** Lengths and whitespace under [replace] and [strip] *)

Lemma lstrip_length (s : str) : len (lstrip s) <= len s.
Proof.
  unfold len. induction s as [|c s IH]; simpl; [lia|].
  destruct (isspace c); simpl; lia.
Qed.

Lemma strip_length (s : str) : len (strip s) <= len s.
Proof.
  unfold strip, rstrip, len. rewrite length_rev.
  pose proof (lstrip_length (rev (lstrip s))) as H1.
  pose proof (lstrip_length s) as H2.
  unfold len in *. rewrite length_rev in H1. lia.
Qed.

Lemma replace_from_length (old : str) : forall s k,
  len (replace_from old [] k s) <= len s.
Proof.
  unfold len. induction s as [|c s IH]; intro k; [destruct k; simpl; lia|].
  destruct k as [|k]; cbn [replace_from].
  - destruct (starts_with old (c :: s)); cbn [app List.length].
    + specialize (IH (List.length old - 1)). lia.
    + specialize (IH 0). lia.
  - specialize (IH k). simpl. lia.
Qed.

Lemma replace_length (s old : str) : len (replace s old []) <= len s.
Proof.
  destruct old as [|c old].
  - rewrite replace_empty_by_empty. lia.
  - apply replace_from_length.
Qed.

Lemma strip_prompt_length (p output : str) :
  len (strip_prompt p output) <= len output.
Proof.
  unfold strip_prompt.
  pose proof (strip_length (replace output p [])).
  pose proof (replace_length output p). lia.
Qed.

Lemma replace_from_blank (old : str) : forall s k,
  blank s -> blank (replace_from old [] k s).
Proof.
  unfold blank. induction s as [|c s IH]; intros k H.
  - destruct k; constructor.
  - inversion H as [|c' s' Hc Hs]; subst.
    destruct k as [|k]; cbn [replace_from].
    + destruct (starts_with old (c :: s)); cbn [app].
      * apply IH. exact Hs.
      * constructor; [exact Hc | apply IH; exact Hs].
    + apply IH. exact Hs.
Qed.

Lemma lstrip_blank (s : str) : blank s -> lstrip s = [].
Proof.
  unfold blank. induction 1 as [|c s Hc Hs IH]; simpl; [reflexivity|].
  rewrite Hc. exact IH.
Qed.

Lemma strip_blank (s : str) : blank s -> strip s = [].
Proof.
  intro H. unfold strip, rstrip. rewrite (lstrip_blank H). reflexivity.
Qed.

Lemma contains_absent (p : str) : forall s i,
  contains p s = false -> starts_with p (skipn i s) = false.
Proof.
  induction s as [|c s IH]; intros i H; cbn [contains] in H;
    apply orb_false_iff in H; destruct H as [H1 H2].
  - destruct i; exact H1.
  - destruct i as [|i]; [exact H1|]. simpl skipn. apply IH. exact H2.
Qed.

Lemma strip_prompt_echo (p c : str) :
  p <> [] -> contains p c = false -> strip_prompt p (p ++ c) = strip c.
Proof.
  intros Hp Hc. unfold strip_prompt.
  pose proof (@replace_leftmost p [] c [] Hp) as H. simpl in H.
  rewrite H by (intros i Hi; lia).
  rewrite replace_absent; [reflexivity | exact Hp |].
  intro i. apply contains_absent. exact Hc.
Qed.

Lemma strip_prompt_self (p : str) : strip_prompt p p = [].
Proof.
  unfold strip_prompt. destruct p as [|c p]; [reflexivity|].
  pose proof (@replace_leftmost (c :: p) [] [] [] ltac:(discriminate)) as H.
  simpl app in H. rewrite app_nil_r in H.
  rewrite H by (intros i Hi; simpl in Hi; lia). reflexivity.
Qed.

(** ** What a run of the results column shows *)

(** The three shapes a run can take. *)
Lemma results_cases (generator : str -> result str) (w : Widgets) :
  (w_generate w && truthy (w_purpose w) = false
   /\ results generator w
      = {| shown := [results_header; fill_in_details]; uncaught := None |})
  \/ (exists p d,
        w_generate w && truthy (w_purpose w) = true
        /\ build_prompt (collect w) = Ok p
        /\ (output <- generator p ;; email_text (collect w) p output) = Ok d
        /\ results generator w
           = {| shown := results_header :: generating :: Generate p
                           :: display (collect w) (w_copy w) d;
                uncaught := None |})
  \/ (exists p x,
        w_generate w && truthy (w_purpose w) = true
        /\ build_prompt (collect w) = Ok p
        /\ (output <- generator p ;; email_text (collect w) p output)
           = Raise x
        /\ results generator w
           = {| shown := results_header :: generating :: Generate p
                           :: handler x;
                uncaught := None |}).
Proof.
  unfold results. cbv zeta.
  rewrite (build_prompt_collect w).
  change (generate_button (collect w)) with (w_generate w).
  change (purpose (collect w)) with (w_purpose w).
  destruct (w_generate w && truthy (w_purpose w)); [|left; split; reflexivity].
  right.
  match goal with
  | |- context [bind (generator ?q) ?k] =>
      destruct (bind (generator q) k) as [d | x] eqn:E
  end.
  - left. eexists. exists d. repeat split; reflexivity || exact E.
  - right. eexists. exists x. repeat split; reflexivity || exact E.
Qed.

Lemma display_events (e : Env) (copy : bool) (d : str) (ev : event) :
  In ev (display e copy d) ->
  ev = Container
  \/ ev = Markdown (lit "**Subject:** " ++ subject e)
  \/ ev = Markdown d
  \/ ev = Button copy_label
  \/ (copy = true /\ ev = Success (lit "Email copied to clipboard!")).
Proof.
  unfold display. intros [H | H]; [auto|].
  apply in_app_or in H. destruct H as [H | H].
  - destruct (truthy (subject e)); [|contradiction].
    destruct H as [H | []]. auto.
  - destruct H as [H | [H | H]]; [auto | auto |].
    destruct copy; [|contradiction].
    destruct H as [H | []]. auto 6.
Qed.

Lemma handler_events (x : exn) (ev : event) :
  In ev (handler x) ->
  ev = Error (lit "Error generating email: " ++ exn_str x)
  \/ ev = Info (lit "Try with a simpler description or different tone.").
Proof.
  intros [H | [H | []]]; auto.
Qed.

Lemma calls_display (e : Env) (copy : bool) (d : str) :
  calls (display e copy d) = 0.
Proof.
  unfold calls, display.
  destruct (truthy (subject e)), copy; reflexivity.
Qed.

(** X1.  On the variables the form binds the prompt builder, which runs
    before the [try], raises nothing: line 73 reads [sender_name] only when
    the box is ticked.  Hence no exception of class [Exception] leaves the
    results column, whether the engine raises it or the extraction does. *)
Theorem errors_stay_in_the_column
        (generator : str -> result str) (w : Widgets) :
  (exists p, build_prompt (collect w) = Ok p)
  /\ uncaught (results generator w) = None.
Proof.
  split.
  - eexists. apply build_prompt_collect.
  - destruct (results_cases generator w)
      as [[_ H] | [[p [d [_ [_ [_ H]]]]] | [p [x [_ [_ [_ H]]]]]]];
      rewrite H; reflexivity.
Qed.

(** X2.  When the call of the engine raises, the page shows the error box
    with the text of the exception after "Error generating email: ", then the
    hint to simplify, and nothing else: no draft, no copy button, no second
    call. *)
Theorem engine_failure_is_reported
        (generator : str -> result str) (w : Widgets) (p : str) (x : exn) :
  w_generate w = true ->
  w_purpose w <> [] ->
  build_prompt (collect w) = Ok p ->
  generator p = Raise x ->
  shown (results generator w)
  = [ results_header; generating; Generate p;
      Error (lit "Error generating email: " ++ exn_str x);
      Info (lit "Try with a simpler description or different tone.") ].
Proof.
  intros Hg Hne Hb Hx. apply truthy_true in Hne.
  destruct (results_cases generator w)
    as [[Hc _] | [[q [d [_ [Hq [E _]]]]] | [q [y [_ [Hq [E H]]]]]]].
  - rewrite Hg, Hne in Hc. discriminate Hc.
  - rewrite Hb in Hq. apply Ok_inj in Hq. subst q.
    rewrite Hx in E. discriminate E.
  - rewrite Hb in Hq. apply Ok_inj in Hq. subst q.
    rewrite Hx in E. cbn [bind] in E.
    assert (y = x) by congruence. subst y.
    rewrite H. reflexivity.
Qed.

(** X3.  The engine is called once when the button is pressed on a non-empty
    purpose and not at all otherwise; a failed call is not repeated. *)
Theorem engine_called_at_most_once
        (generator : str -> result str) (w : Widgets) :
  calls (shown (results generator w))
  = if w_generate w && truthy (w_purpose w) then 1 else 0.
Proof.
  destruct (results_cases generator w)
    as [[Hc H] | [[p [d [Hc [_ [_ H]]]]] | [p [x [Hc [_ [_ H]]]]]]];
    rewrite H, Hc; cbn [shown].
  - reflexivity.
  - change (calls (results_header :: generating :: Generate p
                     :: display (collect w) (w_copy w) d))
      with (S (calls (display (collect w) (w_copy w) d))).
    rewrite calls_display. reflexivity.
  - reflexivity.
Qed.

Lemma engine_failure_is_reported_witness :
  w_generate scenario = true
  /\ w_purpose scenario <> []
  /\ build_prompt (collect scenario) = Ok scenario_prompt
  /\ out_of_memory scenario_prompt
     = Raise (EngineError (lit "CUDA out of memory"))
  /\ shown (results out_of_memory scenario)
     = [ results_header; generating; Generate scenario_prompt;
         Error (lit "Error generating email: CUDA out of memory");
         Info (lit "Try with a simpler description or different tone.") ].
Proof.
  assert (Hne : w_purpose scenario <> []) by discriminate.
  split; [reflexivity|]. split; [exact Hne|].
  split; [reflexivity|]. split; [reflexivity|].
  exact (@engine_failure_is_reported out_of_memory scenario scenario_prompt
           (EngineError (lit "CUDA out of memory"))
           eq_refl Hne eq_refl eq_refl).
Defined.

(** X4.  Where the page shows an error box it shows no draft: an error and a
    draft never appear in the same run. *)
Theorem no_draft_beside_error
        (generator : str -> result str) (w : Widgets) (m : str) :
  In (Error m) (shown (results generator w)) ->
  forall ev, In ev (shown (results generator w)) ->
    ev <> Container /\ (forall d, ev <> Markdown d)
    /\ (forall l, ev <> Button l) /\ (forall s, ev <> Success s).
Proof.
  destruct (results_cases generator w)
    as [[_ H] | [[p [d [_ [_ [_ H]]]]] | [p [x [_ [_ [_ H]]]]]]];
    rewrite H; cbn [shown]; intro Hm.
  - destruct Hm as [Hm | [Hm | []]]; discriminate Hm.
  - destruct Hm as [Hm | [Hm | [Hm | Hm]]]; try discriminate Hm.
    apply display_events in Hm.
    destruct Hm as [Hm | [Hm | [Hm | [Hm | [_ Hm]]]]]; discriminate Hm.
  - intros ev [Hev | [Hev | [Hev | Hev]]]; subst;
      try (repeat split; intros; discriminate).
    apply handler_events in Hev. destruct Hev as [-> | ->];
      repeat split; intros; discriminate.
Qed.

Lemma no_draft_beside_error_witness :
  In (Error (lit "Error generating email: CUDA out of memory"))
     (shown (results out_of_memory scenario))
  /\ forall ev, In ev (shown (results out_of_memory scenario)) ->
       ev <> Container /\ (forall d, ev <> Markdown d)
       /\ (forall l, ev <> Button l) /\ (forall s, ev <> Success s).
Proof.
  assert (H : In (Error (lit "Error generating email: CUDA out of memory"))
                 (shown (results out_of_memory scenario))).
  { right. right. right. left. reflexivity. }
  split; [exact H|].
  exact (@no_draft_beside_error out_of_memory scenario _ H).
Defined.

(** X5.  In a run where the two buttons are not both pressed, and Streamlit
    starts no other, the acknowledgement "Email copied to clipboard!" is not
    shown.  The run that a click on the copy button starts shows the header
    and the note that asks for the details, and the draft is gone. *)
Theorem copy_is_never_acknowledged
        (generator : str -> result str) (w : Widgets) :
  w_generate w && w_copy w = false ->
  (forall s, ~ In (Success s) (shown (results generator w)))
  /\ (w_copy w = true ->
      results generator w
      = {| shown := [results_header; fill_in_details]; uncaught := None |}).
Proof.
  intro Hb.
  destruct (results_cases generator w)
    as [[_ H] | [[p [d [Hc [_ [_ H]]]]] | [p [x [Hc [_ [_ H]]]]]]];
    rewrite H; cbn [shown]; split.
  - intros s [Hs | [Hs | []]]; discriminate Hs.
  - reflexivity.
  - intros s [Hs | [Hs | [Hs | Hs]]]; try discriminate Hs.
    apply display_events in Hs.
    destruct Hs as [Hs | [Hs | [Hs | [Hs | [Hw _]]]]]; try discriminate Hs.
    apply andb_true_iff in Hc. destruct Hc as [Hg _].
    rewrite Hg, Hw in Hb. discriminate Hb.
  - intro Hw. apply andb_true_iff in Hc. destruct Hc as [Hg _].
    rewrite Hg, Hw in Hb. discriminate Hb.
  - intros s [Hs | [Hs | [Hs | Hs]]]; try discriminate Hs.
    apply handler_events in Hs. destruct Hs as [Hs | Hs]; discriminate Hs.
  - intro Hw. apply andb_true_iff in Hc. destruct Hc as [Hg _].
    rewrite Hg, Hw in Hb. discriminate Hb.
Qed.

Lemma copy_is_never_acknowledged_witness :
  w_generate copy_clicked && w_copy copy_clicked = false
  /\ w_copy copy_clicked = true
  /\ (forall s, ~ In (Success s) (shown (results echo copy_clicked)))
  /\ results echo copy_clicked
     = {| shown := [results_header; fill_in_details]; uncaught := None |}.
Proof.
  destruct (@copy_is_never_acknowledged echo copy_clicked eq_refl)
    as [Hn Hr].
  split; [reflexivity|]. split; [reflexivity|].
  split; [exact Hn | exact (Hr eq_refl)].
Defined.

(** ** The text that becomes the draft *)

(** The fallback template alone is longer than fifty characters. *)
Lemma fallback_draft_length (e : Env) (d : str) :
  fallback_draft e = Ok d -> 50 <= len d.
Proof.
  unfold fallback_draft.
  destruct (sender_name e) as [name|]; [|discriminate].
  destruct (sender_position e) as [position|]; [|discriminate].
  cbn [var bind]. intro H. apply Ok_inj in H. subst d.
  unfold len, indent, spaces.
  repeat (rewrite length_app || rewrite repeat_length
          || cbn [List.length]).
  lia.
Qed.

(** X6.  Every draft that comes out of lines 91-103 has at least fifty
    characters: a stripped text has passed the test of line 94, and the
    fallback template alone is longer than that. *)
Theorem draft_has_fifty_characters
        (e : Env) (prompt_template output d : str) :
  email_text e prompt_template output = Ok d -> 50 <= len d.
Proof.
  unfold email_text. cbv zeta.
  destruct (Nat.ltb_spec (len (strip_prompt prompt_template output)) 50)
    as [Hlt | Hge].
  - intro H. exact (@fallback_draft_length e d H).
  - intro H. apply Ok_inj in H. subst d. exact Hge.
Qed.

Lemma draft_has_fifty_characters_witness :
  exists d,
    email_text (collect scenario) scenario_prompt scenario_prompt = Ok d
    /\ 50 <= len d.
Proof.
  eexists. split; [reflexivity|].
  apply (@draft_has_fifty_characters (collect scenario) scenario_prompt
           scenario_prompt).
  reflexivity.
Defined.

(** X7.  A raw text of fewer than fifty characters always gives way to the
    fallback, whatever the prompt: removing the prompt and trimming never
    make a text longer. *)
Theorem short_raw_text_falls_back
        (e : Env) (prompt_template output : str) :
  len output < 50 ->
  len (strip_prompt prompt_template output) <= len output
  /\ email_text e prompt_template output = fallback_draft e.
Proof.
  intro H.
  pose proof (strip_prompt_length prompt_template output) as Hl.
  split; [exact Hl|].
  apply email_text_short. lia.
Qed.

Lemma short_raw_text_falls_back_witness :
  len (lit "Sorry.") < 50
  /\ len (strip_prompt scenario_prompt (lit "Sorry.")) <= len (lit "Sorry.")
  /\ email_text (collect scenario) scenario_prompt (lit "Sorry.")
     = fallback_draft (collect scenario).
Proof.
  assert (H : len (lit "Sorry.") < 50).
  { apply Nat.ltb_lt. reflexivity. }
  split; [exact H|].
  exact (@short_raw_text_falls_back (collect scenario) scenario_prompt
           (lit "Sorry.") H).
Defined.

(** X8.  An engine that returns the prompt and nothing more always leads to
    the fallback: the stripped text is empty, for every prompt. *)
Theorem echo_only_falls_back (e : Env) (prompt_template : str) :
  strip_prompt prompt_template prompt_template = []
  /\ email_text e prompt_template prompt_template = fallback_draft e.
Proof.
  pose proof (strip_prompt_self prompt_template) as H.
  split; [exact H|].
  apply email_text_short. rewrite H. simpl. lia.
Qed.

(** X9.  A raw text of whitespace only leads to the fallback however long it
    is: what is left of it after the prompt is removed is still whitespace,
    and stripping empties it. *)
Theorem blank_raw_text_falls_back
        (e : Env) (prompt_template output : str) :
  blank output ->
  strip_prompt prompt_template output = []
  /\ email_text e prompt_template output = fallback_draft e.
Proof.
  intro Hb.
  assert (H : strip_prompt prompt_template output = []).
  { unfold strip_prompt. apply strip_blank.
    destruct prompt_template as [|c p].
    - rewrite replace_empty_by_empty. exact Hb.
    - apply replace_from_blank. exact Hb. }
  split; [exact H|].
  apply email_text_short. rewrite H. simpl. lia.
Qed.

Lemma blank_raw_text_falls_back_witness :
  blank (spaces 60)
  /\ 50 <= len (spaces 60)
  /\ strip_prompt scenario_prompt (spaces 60) = []
  /\ email_text (collect scenario) scenario_prompt (spaces 60)
     = fallback_draft (collect scenario).
Proof.
  assert (H : blank (spaces 60)).
  { unfold blank, spaces. apply Forall_forall. intros c Hc.
    apply repeat_spec in Hc. subst c. reflexivity. }
  split; [exact H|].
  split; [apply Nat.leb_le; reflexivity|].
  exact (@blank_raw_text_falls_back (collect scenario) scenario_prompt
           (spaces 60) H).
Defined.

(** ** Whole runs *)

Lemma prompt_nonempty (w : Widgets) (p : str) :
  build_prompt (collect w) = Ok p -> p <> [].
Proof.
  rewrite build_prompt_collect. intro H. apply Ok_inj in H. subst p.
  unfold base_clause. discriminate.
Qed.

(** X10.  When the engine returns the prompt followed by a continuation in
    which the prompt does not occur again, and the trimmed continuation has
    fifty characters or more, the page shows exactly that trimmed
    continuation as the draft. *)
Theorem echoed_prompt_is_cut_off
        (generator : str -> result str) (w : Widgets) (p c : str) :
  w_generate w = true ->
  w_purpose w <> [] ->
  build_prompt (collect w) = Ok p ->
  generator p = Ok (p ++ c) ->
  contains p c = false ->
  50 <= len (strip c) ->
  shown (results generator w)
  = results_header :: generating :: Generate p
      :: display (collect w) (w_copy w) (strip c).
Proof.
  intros Hg Hne Hb Ho Hc Hlen. apply truthy_true in Hne.
  pose proof (prompt_nonempty w Hb) as Hp.
  assert (Ht : email_text (collect w) p (p ++ c) = Ok (strip c)).
  { rewrite <- (@strip_prompt_echo p c Hp Hc). apply email_text_long.
    rewrite (@strip_prompt_echo p c Hp Hc). exact Hlen. }
  destruct (results_cases generator w)
    as [[Hf _] | [[q [d [_ [Hq [E H]]]]] | [q [x [_ [Hq [E _]]]]]]].
  - rewrite Hg, Hne in Hf. discriminate Hf.
  - rewrite Hb in Hq. apply Ok_inj in Hq. subst q.
    rewrite Ho in E. cbn [bind] in E. rewrite Ht in E.
    apply Ok_inj in E. subst d. rewrite H. reflexivity.
  - rewrite Hb in Hq. apply Ok_inj in Hq. subst q.
    rewrite Ho in E. cbn [bind] in E. rewrite Ht in E. discriminate E.
Qed.

Lemma echoed_prompt_is_cut_off_witness :
  w_generate scenario = true
  /\ w_purpose scenario <> []
  /\ build_prompt (collect scenario) = Ok scenario_prompt
  /\ echo_then_letter scenario_prompt = Ok (scenario_prompt ++ letter)
  /\ contains scenario_prompt letter = false
  /\ 50 <= len (strip letter)
  /\ shown (results echo_then_letter scenario)
     = results_header :: generating :: Generate scenario_prompt
         :: display (collect scenario) (w_copy scenario) (strip letter).
Proof.
  assert (Hne : w_purpose scenario <> []) by discriminate.
  assert (Hc : contains scenario_prompt letter = false)
    by (vm_compute; reflexivity).
  assert (Hl : 50 <= len (strip letter))
    by (apply Nat.leb_le; vm_compute; reflexivity).
  split; [reflexivity|]. split; [exact Hne|].
  split; [reflexivity|]. split; [reflexivity|].
  split; [exact Hc|]. split; [exact Hl|].
  exact (@echoed_prompt_is_cut_off echo_then_letter scenario scenario_prompt
           letter eq_refl Hne eq_refl eq_refl Hc Hl).
Defined.

(** X11.  With the signature box ticked, every call of the engine that
    returns ends in a displayed, non-empty draft: no raw text, however short
    or blank, brings up the error box. *)
Theorem signed_run_shows_draft
        (generator : str -> result str) (w : Widgets) (p output : str) :
  w_include_signature w = true ->
  w_generate w = true ->
  w_purpose w <> [] ->
  build_prompt (collect w) = Ok p ->
  generator p = Ok output ->
  exists d,
    email_text (collect w) p output = Ok d
    /\ d <> []
    /\ shown (results generator w)
       = results_header :: generating :: Generate p
           :: display (collect w) (w_copy w) d.
Proof.
  intros Hs Hg Hne Hb Ho. apply truthy_true in Hne.
  destruct (email_text_signed_nonempty w p output Hs) as [d [Hd Hnz]].
  exists d. split; [exact Hd|]. split; [exact Hnz|].
  destruct (results_cases generator w)
    as [[Hf _] | [[q [d' [_ [Hq [E H]]]]] | [q [x [_ [Hq [E _]]]]]]].
  - rewrite Hg, Hne in Hf. discriminate Hf.
  - rewrite Hb in Hq. apply Ok_inj in Hq. subst q.
    rewrite Ho in E. cbn [bind] in E. rewrite Hd in E.
    apply Ok_inj in E. subst d'. rewrite H. reflexivity.
  - rewrite Hb in Hq. apply Ok_inj in Hq. subst q.
    rewrite Ho in E. cbn [bind] in E. rewrite Hd in E. discriminate E.
Qed.

Lemma signed_run_shows_draft_witness :
  w_include_signature scenario = true
  /\ w_generate scenario = true
  /\ w_purpose scenario <> []
  /\ build_prompt (collect scenario) = Ok scenario_prompt
  /\ echo scenario_prompt = Ok scenario_prompt
  /\ exists d,
       email_text (collect scenario) scenario_prompt scenario_prompt = Ok d
       /\ d <> []
       /\ shown (results echo scenario)
          = results_header :: generating :: Generate scenario_prompt
              :: display (collect scenario) (w_copy scenario) d.
Proof.
  assert (Hne : w_purpose scenario <> []) by discriminate.
  split; [reflexivity|]. split; [reflexivity|]. split; [exact Hne|].
  split; [reflexivity|]. split; [reflexivity|].
  exact (@signed_run_shows_draft echo scenario scenario_prompt
           scenario_prompt eq_refl eq_refl Hne eq_refl eq_refl).
Defined.

(** ** Fields the prompt leaves out and the fallback uses *)

(** X12.  The greeting box governs the prompt only.  With the box unticked
    the prompt is the one of a request without recipient, yet the fallback
    draft still opens with "Dear <recipient>,". *)
Theorem fallback_greets_without_greeting_box (w : Widgets) :
  w_include_greeting w = false ->
  w_include_signature w = true ->
  w_recipient w <> [] ->
  build_prompt (collect w) = build_prompt (collect (with_recipient w []))
  /\ exists rest,
       fallback_draft (collect w)
       = Ok (nl :: indent ++ lit "Dear " ++ w_recipient w ++ lit "," ++ rest).
Proof.
  intros Hg Hs Hr. split.
  - rewrite !build_prompt_collect. unfold with_recipient.
    cbn [w_recipient w_subject w_purpose w_tone w_include_greeting
         w_include_signature w_your_name w_your_position].
    rewrite Hg. reflexivity.
  - rewrite (fallback_draft_signed w Hs).
    apply truthy_true in Hr. unfold layout, greeting_line. rewrite Hr.
    cbn [flat_map]. eexists. f_equal. f_equal.
    rewrite <- !app_assoc. reflexivity.
Qed.

Lemma fallback_greets_without_greeting_box_witness :
  w_include_greeting ungreeted = false
  /\ w_include_signature ungreeted = true
  /\ w_recipient ungreeted <> []
  /\ build_prompt (collect ungreeted)
     = build_prompt (collect (with_recipient ungreeted []))
  /\ exists rest,
       fallback_draft (collect ungreeted)
       = Ok (nl :: indent ++ lit "Dear " ++ w_recipient ungreeted
                ++ lit "," ++ rest).
Proof.
  assert (Hr : w_recipient ungreeted <> []) by discriminate.
  split; [reflexivity|]. split; [reflexivity|]. split; [exact Hr|].
  exact (@fallback_greets_without_greeting_box ungreeted eq_refl eq_refl Hr).
Defined.

(** X13.  A position typed without a name is left out of the prompt, which
    is the one of a request without sender details, but the fallback draft
    still ends with it, under an empty line for the name. *)
Theorem position_without_name (w : Widgets) :
  w_include_signature w = true ->
  w_your_name w = [] ->
  w_your_position w <> [] ->
  build_prompt (collect w) = build_prompt (collect (with_sender w [] []))
  /\ exists front,
       fallback_draft (collect w)
       = Ok (front ++ nl :: indent ++ nl :: indent ++ w_your_position w
                   ++ nl :: indent).
Proof.
  intros Hs Hn Hp. split.
  - rewrite !build_prompt_collect. unfold with_sender.
    cbn [w_recipient w_subject w_purpose w_tone w_include_greeting
         w_include_signature w_your_name w_your_position].
    rewrite Hn. cbn [truthy]. rewrite !andb_false_r. reflexivity.
  - rewrite (fallback_draft_signed w Hs). rewrite Hn.
    unfold layout. cbn [flat_map].
    exists (nl :: indent ++ greeting_line (w_recipient w) ++ nl
               :: indent ++ nl :: indent ++ w_purpose w ++ nl
               :: indent ++ nl :: indent ++ closing_line (w_tone w)).
    f_equal. cbn [app]. f_equal.
    rewrite <- !app_assoc. cbn [app].
    repeat (rewrite <- !app_assoc; cbn [app]; f_equal).
Qed.

Lemma position_without_name_witness :
  w_include_signature position_only = true
  /\ w_your_name position_only = []
  /\ w_your_position position_only <> []
  /\ build_prompt (collect position_only)
     = build_prompt (collect (with_sender position_only [] []))
  /\ exists front,
       fallback_draft (collect position_only)
       = Ok (front ++ nl :: indent ++ nl :: indent
                   ++ w_your_position position_only ++ nl :: indent).
Proof.
  assert (Hp : w_your_position position_only <> []) by discriminate.
  split; [reflexivity|]. split; [reflexivity|]. split; [exact Hp|].
  exact (@position_without_name position_only eq_refl eq_refl Hp).
Defined.

(** ** The tone and the subject *)

Lemma base_clause_apart (t1 t2 : Tone) (r1 r2 : str) :
  base_clause t1 ++ r1 = base_clause t2 ++ r2 -> t1 = t2.
Proof.
  intro H. apply (f_equal (firstn 23)) in H.
  destruct t1, t2; try reflexivity; vm_compute in H; discriminate H.
Qed.

(** X14.  The tone can be read off the prompt: two requests with the same
    prompt have the same tone, whatever their other fields. *)
Theorem prompt_tells_tone (w1 w2 : Widgets) :
  build_prompt (collect w1) = build_prompt (collect w2) ->
  w_tone w1 = w_tone w2.
Proof.
  rewrite !build_prompt_collect. intro H. apply Ok_inj in H.
  exact (base_clause_apart H).
Qed.

Lemma prompt_tells_tone_witness :
  build_prompt (collect unsigned_with_sender) = build_prompt (collect unsigned)
  /\ w_tone unsigned_with_sender = w_tone unsigned.
Proof.
  assert (H : build_prompt (collect unsigned_with_sender)
              = build_prompt (collect unsigned)) by reflexivity.
  split; [exact H|].
  exact (@prompt_tells_tone unsigned_with_sender unsigned H).
Defined.

Lemma display_subject_line (e : Env) (copy : bool) (d : str) :
  50 <= len d ->
  In (Markdown (lit "**Subject:** " ++ subject e)) (display e copy d) ->
  subject e <> [].
Proof.
  intros Hd Hin E. rewrite E in Hin. unfold display in Hin. rewrite E in Hin.
  cbn [truthy app] in Hin.
  destruct Hin as [Hin | [Hin | [Hin | Hin]]]; try discriminate Hin.
  - injection Hin as Hin. subst d. vm_compute in Hd. lia.
  - destruct copy; [destruct Hin as [Hin | []]; discriminate Hin
                   | contradiction].
Qed.

(** X15.  The line "**Subject:** <subject>" is on the page exactly when a
    subject was typed and the run displays a draft; with an empty subject no
    such line appears, not even as the draft. *)
Theorem subject_line_iff (generator : str -> result str) (w : Widgets) :
  In (Markdown (lit "**Subject:** " ++ w_subject w))
     (shown (results generator w))
  <-> w_subject w <> [] /\ In Container (shown (results generator w)).
Proof.
  destruct (results_cases generator w)
    as [[_ H] | [[p [d [_ [_ [E H]]]]] | [p [x [_ [_ [_ H]]]]]]];
    rewrite H; cbn [shown]; split.
  - intros [Hs | [Hs | []]]; discriminate Hs.
  - intros [_ [Hc | [Hc | []]]]; discriminate Hc.
  - intros [Hs | [Hs | [Hs | Hs]]]; try discriminate Hs.
    split; [|do 3 right; left; reflexivity].
    assert (Hd : 50 <= len d).
    { destruct (generator p) as [output|]; [|discriminate E].
      cbn [bind] in E. unfold email_text in E. cbv zeta in E.
      destruct (Nat.ltb_spec (len (strip_prompt p output)) 50) as [_ | Hge].
      - exact (@fallback_draft_length _ _ E).
      - apply Ok_inj in E. subst d. exact Hge. }
    exact (@display_subject_line (collect w) (w_copy w) d Hd Hs).
  - intros [Hne _]. apply truthy_true in Hne.
    do 3 right. unfold display. right. apply in_or_app. left.
    change (subject (collect w)) with (w_subject w).
    rewrite Hne. left. reflexivity.
  - intros [Hs | [Hs | [Hs | Hs]]]; try discriminate Hs.
    apply handler_events in Hs. destruct Hs as [Hs | Hs]; discriminate Hs.
  - intros [_ [Hc | [Hc | [Hc | Hc]]]]; try discriminate Hc.
    apply handler_events in Hc. destruct Hc as [Hc | Hc]; discriminate Hc.
Qed.
